(** * nalgebra.rs: the documentation site of the nalgebra library

    A shallow embedding of the site's own artefacts: the landing page
    components ([Feature] and [Home]), the docs sidebar ([sidebar_docs.js]),
    the site configuration, the heads of the content pages and the rustdoc
    generation script, with the properties the specification states about
    them. *)

From Stdlib Require Import List String Ascii Bool ZArith Lia DecimalString FinFun.
Import ListNotations.
Open Scope string_scope.

(** ** JavaScript values and React elements *)

Module Js.

(** The values the landing page handles, and the element trees its components
    return.  [JHole v] is an interpolation [{expr}] whose value is [v];
    [JHost] is a DOM element, [JComp] an element of a component, with the
    [key] React keeps apart from the props. *)
#[local] Unset Elimination Schemes.
Inductive value : Type :=
| VUndefined
| VNull
| VBool (b : bool)
| VNum (n : Z)
| VStr (s : string)
| VObj (fields : list (string * value))
| VJsx (e : jsx)
with jsx : Type :=
| JText (s : string)
| JHole (v : value)
| JHost (tag : string) (props : list (string * value)) (children : list jsx)
| JFrag (children : list jsx)
| JComp (name : string) (key : option nat) (props : list (string * value))
        (children : list jsx).
#[local] Set Elimination Schemes.

Definition obj : Type := list (string * value).

(** Property lookup [o.k] / destructuring [{k} = o]: [undefined] when the
    object has no such property. *)
Fixpoint get (k : string) (o : obj) : value :=
  match o with
  | [] => VUndefined
  | (k', v) :: o' => if k' =? k then v else get k o'
  end.

Definition has (k : string) (o : obj) : bool :=
  existsb (fun kv => fst kv =? k) o.

Definition keys (o : obj) : list string := map fst o.

(** ToBoolean. *)
Definition truthy (v : value) : bool :=
  match v with
  | VUndefined | VNull => false
  | VBool b => b
  | VNum n => negb (n =? 0)%Z
  | VStr s => negb (s =? "")
  | VObj _ | VJsx _ => true
  end.

(** ToString, as a template literal applies it. *)
Definition to_string (v : value) : string :=
  match v with
  | VUndefined => "undefined"
  | VNull => "null"
  | VBool true => "true"
  | VBool false => "false"
  | VNum n => NilZero.string_of_int (Z.to_int n)
  | VStr s => s
  | VObj _ | VJsx _ => "[object Object]"
  end.

(** [v && e] inside JSX: the element when [v] is truthy, [v] itself
    otherwise. *)
Definition js_and (v : value) (e : jsx) : jsx :=
  if truthy v then e else JHole v.

(** [xs.map((x, idx) => f x idx)]. *)
Fixpoint mapi_from {A B : Type} (f : A -> nat -> B) (idx : nat) (xs : list A)
  : list B :=
  match xs with
  | [] => []
  | x :: xs' => f x idx :: mapi_from f (S idx) xs'
  end.

Definition mapi {A B : Type} (f : A -> nat -> B) (xs : list A) : list B :=
  mapi_from f 0 xs.

(** [clsx(...args)] on class names that are strings or [undefined]: the
    non-empty ones, separated by one space. *)
Definition clsx (args : list (option string)) : string :=
  fold_left
    (fun acc a =>
       match a with
       | Some s =>
           if s =? "" then acc
           else if acc =? "" then s else acc ++ " " ++ s
       | None => acc
       end)
    args "".

Definition opt_str (o : option string) : value :=
  match o with
  | Some s => VStr s
  | None => VUndefined
  end.

(** The elements of component [name] in a tree, with key and props, in
    document order.  Interpolated values are not searched: what is in them
    was built by whoever passed them. *)
Fixpoint components_named (name : string) (e : jsx)
  : list (option nat * obj) :=
  match e with
  | JText _ | JHole _ => []
  | JHost _ _ ch => flat_map (components_named name) ch
  | JFrag ch => flat_map (components_named name) ch
  | JComp n k ps ch =>
      (if n =? name then [(k, ps)] else [])
        ++ flat_map (components_named name) ch
  end.

(** The DOM elements with tag [tag] in a tree, in document order. *)
Fixpoint hosts_named (tag : string) (e : jsx) : list jsx :=
  match e with
  | JText _ | JHole _ => []
  | JHost t ps ch =>
      (if t =? tag then [e] else []) ++ flat_map (hosts_named tag) ch
  | JFrag ch => flat_map (hosts_named tag) ch
  | JComp _ _ _ ch => flat_map (hosts_named tag) ch
  end.

(** The props of an element; a text or an interpolation has none. *)
Definition props_of (e : jsx) : obj :=
  match e with
  | JHost _ ps _ => ps
  | JComp _ _ ps _ => ps
  | _ => []
  end.

(** The object has the properties [ks] and no other. *)
Definition has_exactly (ks : list string) (o : obj) : Prop :=
  forall k, In k (keys o) <-> In k ks.

End Js.

(** ** The landing page *)

Module Landing.
Import Js.

(** [const features = [...]].  The text of a JSX fragment is given with
    JSX's white space rule applied: lines trimmed and joined by one space. *)
Definition features : list obj :=
  [ [ ("title", VJsx (JFrag [JText "Vectors and matrices"]));
      ("imageUrl", VStr "img/lego.svg");
      ("description",
        VJsx (JFrag [JText "The fundamental building blocks of linear algebra: heap or stack-allocated vectors and matrices parametrized by their dimensions."])) ];
    [ ("title", VJsx (JFrag [JText "Decompositions and Lapack"]));
      ("imageUrl", VStr "img/decomposition.svg");
      ("description",
        VJsx (JFrag [JText "Compute matrix decompositions, and solutions to linear systems. Benefit from efficient Rust implementations, or Lapack bindings."])) ];
    [ ("title", VJsx (JFrag [JText "Points and transformations"]));
      ("imageUrl", VStr "img/rotation.svg");
      ("description",
        VJsx (JFrag [JText "Strongly typed geometric entities like points, rotation matrices, quaternions, isometries, similarities, projections, etc."])) ];
    [ ("title", VJsx (JFrag [JText "nalgebra-glm, for computer graphics"]));
      ("imageUrl", VStr "img/logo_glm.svg");
      ("description",
        VJsx (JFrag [JText "Use the nalgebra-glm crate for a simpler, straight-to-the-point, graphics programming-oriented API. Inspired by the C++ GLM library."])) ];
    [ ("title", VJsx (JFrag [JText "Wasm and Embedded programming"]));
      ("imageUrl", VStr "img/cpu.svg");
      ("description",
        VJsx (JFrag [JText "Use and compile nalgebra for browser applications or embedded targets that do not support the Rust standard library."])) ];
    [ ("title", VJsx (JFrag [JText "Forever free and Open-Source"]));
      ("imageUrl", VStr "img/undraw_open_source.svg");
      ("description",
        VJsx (JFrag [JText "Built with a FOSS mindset, we aim to empower the Rust and web communities with an efficient linear algebra library."])) ] ].

(** What [useDocusaurusContext()] returns, as far as [Home] reads it:
    [siteConfig] may be absent. *)
Record DocusaurusContext : Type := { siteConfig : option obj }.

Section Components.

(** The imports that are not part of the repository's sources: the
    framework's hooks and the CSS module [./styles.module.css], whose class
    names are strings or [undefined]. *)
Variable useBaseUrl : value -> value.
Variable useDocusaurusContext : DocusaurusContext.
Variable styles : string -> option string.

(** [function Feature({imageUrl, title, description})]. *)
Definition Feature (props : obj) : jsx :=
  let imageUrl := get "imageUrl" props in
  let title := get "title" props in
  let description := get "description" props in
  let imgUrl := useBaseUrl imageUrl in
  JHost "div"
    [("className", VStr (clsx [Some "col col--4"; styles "feature"]))]
    [ js_and imgUrl
        (JHost "div" [("className", VStr "text--center")]
           [ JHost "img"
               [ ("className", opt_str (styles "featureImage"));
                 ("src", imgUrl);
                 ("alt", title) ]
               [] ]);
      JHost "h3" [] [JHole title];
      JHost "p" [] [JHole description] ].

(** The [<main>] child of [Home],
    [features && features.length > 0 && (<section ...>)], for an array
    [feats]: an array is truthy, so the length decides. *)
Definition feature_grid (feats : list obj) : jsx :=
  if (0 <? List.length feats)%nat then
    JHost "section" [("className", opt_str (styles "features"))]
      [ JHost "div" [("className", VStr "container")]
          [ JHost "div" [("className", VStr "row")]
              (mapi (fun props idx => JComp "Feature" (Some idx) props [])
                 feats) ] ]
  else JHole (VBool false).

(** The body of [function Home()], with the module constant [features]
    as the parameter [feats]. *)
Definition Home_of (feats : list obj) : jsx :=
  let context := useDocusaurusContext in
  let siteConfig :=
    match siteConfig context with
    | Some c => c
    | None => []
    end in
  JComp "Layout" None
    [ ("title",
        VStr (to_string (get "title" siteConfig) ++ " linear-algebra library"));
      ("description", VStr "Fast and cross-platform linear-algebra library") ]
    [ JHost "header"
        [("className",
           VStr (clsx [Some "hero hero--primary"; styles "heroBanner"]))]
        [ JHost "div" [("className", VStr "container")]
            [ JHost "div" [("className", VStr "")]
                [ JHost "img"
                    [ ("src", VStr "img/logo_nalgebra.svg");
                      ("width", VStr "60%");
                      ("alt", VStr "Project Logo") ]
                    [] ];
              JHost "p" [("className", VStr "hero__subtitle")]
                [JHole (get "tagline" siteConfig)];
              JHost "div" [("className", opt_str (styles "buttons"))]
                [ JComp "Link" None
                    [ ("className",
                        VStr (clsx
                                [ Some "button button--outline button--lg --ifm-color-prim force-border";
                                  styles "getStarted" ]));
                      ("to", useBaseUrl (VStr "docs/user_guide/getting_started")) ]
                    [JText "Get Started"] ] ] ];
      JHost "main" [] [feature_grid feats] ].

(** [function Home()]. *)
Definition Home : jsx := Home_of features.

End Components.

End Landing.

(** ** The docs sidebar, [sidebar_docs.js] *)

Module Sidebar.

(** An entry of a sidebar array: a document identifier, the shorthand
    [{ 'Label': [...] }] for a category, or an object literal with string
    fields. *)
#[local] Unset Elimination Schemes.
Inductive item : Type :=
| Doc (id : string)
| Category (label : string) (items : list item)
| Object (fields : list (string * string)).
#[local] Set Elimination Schemes.

(** [module.exports.docs].  The entry ['user_guide/quick_reference'] is
    commented out in the source and is no part of the array. *)
Definition docs : list item :=
  [ Doc "about_nalgebra";
    Category "User Guide"
      [ Doc "user_guide/getting_started";
        Doc "user_guide/vectors_and_matrices";
        Doc "user_guide/decompositions_and_lapack";
        Doc "user_guide/points_and_transformations";
        Doc "user_guide/projections";
        Doc "user_guide/cg_recipes";
        Doc "user_guide/nalgebra_glm";
        Doc "user_guide/performance_tricks";
        Doc "user_guide/wasm_and_embedded_targets";
        Doc "user_guide/generic_programming" ];
    Category "API documentation"
      [ Object [ ("type", "link");
                 ("label", "nalgebra ↪");
                 ("href", "https://docs.rs/nalgebra") ];
        Object [ ("type", "link");
                 ("label", "nalgebra-glm ↪");
                 ("href", "https://docs.rs/nalgebra-glm") ];
        Object [ ("type", "link");
                 ("label", "nalgebra-lapack ↪");
                 ("href", "https://docs.rs/nalgebra-lapack") ] ];
    Doc "faq" ].

Fixpoint field (k : string) (fs : list (string * string)) : option string :=
  match fs with
  | [] => None
  | (k', v) :: fs' => if k' =? k then Some v else field k fs'
  end.

(** The plain string identifiers of a tree, categories included, in order:
    what has to be resolved to a page of the docs directory. *)
Fixpoint doc_ids (it : item) : list string :=
  match it with
  | Doc id => [id]
  | Category _ items => flat_map doc_ids items
  | Object _ => []
  end.

Definition tree_doc_ids (tree : list item) : list string :=
  flat_map doc_ids tree.

(** The entries of the top-level category [label], if the tree has one. *)
Fixpoint category_items (label : string) (tree : list item)
  : option (list item) :=
  match tree with
  | [] => None
  | Category l items :: tree' =>
      if l =? label then Some items else category_items label tree'
  | _ :: tree' => category_items label tree'
  end.

(** An entry that is a link object [{type: 'link', href: 'https://...'}]. *)
Definition is_https_link (it : item) : bool :=
  match it with
  | Object fs =>
      match field "type" fs, field "href" fs with
      | Some t, Some h => (t =? "link") && prefix "https://" h
      | _, _ => false
      end
  | _ => false
  end.

End Sidebar.

(** ** The site configuration *)

Module SiteConfig.

(** The options of a docs plugin instance; [sidebarPath] is the argument of
    [require.resolve]. *)
Record docs_options : Type := {
  id : option string;
  path : string;
  routeBasePath : string;
  sidebarPath : string;
  showLastUpdateTime : bool
}.

(** [module.exports], without [themeConfig] (the navbar and footer links are
    in [ThemeConfig] below) and the blog options. *)
Record config : Type := {
  title : string;
  tagline : string;
  url : string;
  baseUrl : string;
  onBrokenLinks : string;
  favicon : string;
  organizationName : string;
  projectName : string;
  plugins : list (string * docs_options);
  preset_docs : docs_options;
  theme_customCss : string;
  stylesheets : list string
}.

Definition siteConfig : config := {|
  title := "nalgebra";
  tagline := "Linear algebra library for the Rust programming language.";
  url := "https://nalgebra.org";
  baseUrl := "/";
  onBrokenLinks := "error";
  favicon := "img/favicon.png";
  organizationName := "dimforge";
  projectName := "nalgebra";
  plugins :=
    [ ("@docusaurus/plugin-content-docs",
       {| id := Some "community";
          path := "community";
          routeBasePath := "community";
          sidebarPath := "./sidebar_community.js";
          showLastUpdateTime := false |}) ];
  preset_docs :=
    {| id := None;
       path := "docs";
       routeBasePath := "docs";
       sidebarPath := "./sidebar_docs.js";
       showLastUpdateTime := false |};
  theme_customCss := "./src/css/custom.css";
  stylesheets :=
    ["https://cdn.jsdelivr.net/npm/katex@0.11.0/dist/katex.min.css"]
|}.

(** The value the source leaves in the comment after [onBrokenLinks]:
    [onBrokenLinks: 'error', // 'throw',]. *)
Definition onBrokenLinks_commented_out : string := "throw".

(** The local files the configuration names through [require.resolve]. *)
Definition resolved_files (c : config) : list string :=
  map (fun p => sidebarPath (snd p)) (plugins c)
    ++ [sidebarPath (preset_docs c); theme_customCss c].

(** What the site generator does with a message at a reporting severity.
    The generator is no part of this repository; this is the dispatch its
    documentation of [onBrokenLinks] describes: ['ignore'] drops the message,
    ['log'], ['warn'] and ['error'] print it at that level and the build goes
    on, ['throw'] raises an error, which aborts the build; any other value is
    rejected with an error as well. *)
Inductive report_effect : Type :=
| Dropped
| Printed (level : string)
| Thrown.

Definition reportMessage (reportingSeverity : string) : report_effect :=
  if reportingSeverity =? "ignore" then Dropped
  else if reportingSeverity =? "log" then Printed "info"
  else if reportingSeverity =? "warn" then Printed "warn"
  else if reportingSeverity =? "error" then Printed "error"
  else Thrown.

End SiteConfig.

(** ** Paths *)

Module Path.

(** The segments of a path, split at [/]. *)
Fixpoint segments_from (acc : string) (s : string) : list string :=
  match s with
  | EmptyString => [acc]
  | String c s' =>
      if Ascii.eqb c "/" then acc :: segments_from "" s'
      else segments_from (acc ++ String c "") s'
  end.

Definition segments (s : string) : list string := segments_from "" s.

End Path.

(** ** The content pages *)

Module Content.

(** A Markdown/MDX page of the sources: the name the sources hold it under
    and its leading lines, which is where a front-matter block sits. *)
Record page : Type := {
  name : string;
  head : list string
}.

Definition decompositions_and_lapack : page := {|
  name := "docs/user_guide/decompositions_and_lapack.mdx";
  head :=
    [ "---";
      "id: decompositions_and_lapack";
      "title: Decompositions and Lapack";
      "sidebar_label: Decompositions and Lapack";
      "---";
      "";
      "import Tabs from '@theme/Tabs';";
      "import TabItem from '@theme/TabItem';" ]
|}.

Definition nalgebra_glm : page := {|
  name := "docs/user_guide/nalgebra_glm.mdx";
  head :=
    [ "---";
      "id: nalgebra_glm";
      "title: The nalgebra-glm crate";
      "sidebar_label: The nalgebra-glm crate";
      "---";
      "";
      "import Tabs from '@theme/Tabs';";
      "import TabItem from '@theme/TabItem';" ]
|}.

Definition part_002 : page := {|
  name := "unnamed/part_002";
  head :=
    [ "---";
      "id: generic_programming";
      "title: Generic programming";
      "sidebar_label: Generic programming";
      "---";
      "";
      "import Tabs from '@theme/Tabs';";
      "import TabItem from '@theme/TabItem';" ]
|}.

Definition part_003 : page := {|
  name := "unnamed/part_003";
  head :=
    [ "# Web assembly and embedded programming";
      "Linear algebra can of course be dramatically useful for browser applications";
      "or embedded applications. For example, vector, matrix, and geometric operations" ]
|}.

Definition part_004 : page := {|
  name := "unnamed/part_004";
  head :=
    [ "# Web assembly and embedded programming";
      "Linear algebra can of course be dramatically useful for browser applications";
      "or embedded applications. For example, vector, matrix, and geometric operations" ]
|}.

(** The Markdown/MDX pages among the sources. *)
Definition pages : list page :=
  [decompositions_and_lapack; nalgebra_glm; part_002; part_003; part_004].

(** [key: value] of a front-matter line. *)
Fixpoint split_colon (s : string) : option (string * string) :=
  match s with
  | EmptyString => None
  | String c s' =>
      if Ascii.eqb c ":" then Some ("", s')
      else
        match split_colon s' with
        | Some (k, v) => Some (String c k, v)
        | None => None
        end
  end.

Fixpoint ltrim (s : string) : string :=
  match s with
  | String c s' => if Ascii.eqb c " " then ltrim s' else s
  | EmptyString => s
  end.

(** The fields of a block up to its closing [---]; [None] when the block is
    not closed. *)
Fixpoint block_fields (lines : list string)
  : option (list (string * string)) :=
  match lines with
  | [] => None
  | l :: rest =>
      if l =? "---" then Some []
      else
        match block_fields rest with
        | None => None
        | Some fs =>
            match split_colon l with
            | Some (k, v) => Some ((k, ltrim v) :: fs)
            | None => Some fs
            end
        end
  end.

(** The front-matter a file declares: the block between a first line [---]
    and the next line [---]. *)
Definition front_matter (lines : list string)
  : option (list (string * string)) :=
  match lines with
  | l :: rest => if l =? "---" then block_fields rest else None
  | [] => None
  end.

Definition opens_front_matter (p : page) : bool :=
  match head p with
  | l :: _ => l =? "---"
  | [] => false
  end.

Definition declares (k : string) (fs : list (string * string)) : bool :=
  existsb (fun kv => fst kv =? k) fs.

(** The page declares front-matter with an id, a title and a sidebar
    label. *)
Definition has_front_matter (p : page) : bool :=
  match front_matter (head p) with
  | Some fs =>
      declares "id" fs && declares "title" fs && declares "sidebar_label" fs
  | None => false
  end.

Fixpoint field (k : string) (fs : list (string * string)) : option string :=
  match fs with
  | [] => None
  | (k', v) :: fs' => if k' =? k then Some v else field k fs'
  end.

(** The identifier under which a sidebar names a page of the docs directory:
    the page's directory below [docs/] and the id its front-matter declares.
    [None] for a page that is not known to lie in [docs/] or declares no
    id. *)
Definition doc_id (p : page) : option string :=
  match Path.segments (name p) with
  | "docs" :: rest =>
      match front_matter (head p) with
      | Some fs =>
          match field "id" fs with
          | Some id => Some (concat "/" (removelast rest ++ [id]))
          | None => None
          end
      | None => None
      end
  | _ => None
  end.

End Content.

(** ** The rustdoc generation script *)

Module GenDocs.
Import Path.

(** A word of the script: literal text and [$name] expansions. *)
Inductive part : Type :=
| Lit (s : string)
| Var (name : string).

Definition word : Type := list part.

Inductive command : Type :=
| Assign (name : string) (w : word)
| Exec (ws : list word).

Definition lit (s : string) : word := [Lit s].

(** The script, one command per [;] or line. *)
Definition script : list command :=
  [ Assign "out_dir" (lit "./docs/rustdoc");
    Assign "nalgebra_dir" (lit "../nalgebra");
    Exec [lit "echo"; lit "Generating the documentation..."];
    Exec [lit "cd"; [Var "nalgebra_dir"]];
    Exec [lit "rm"; lit "-r"; lit "target/doc"];
    Exec [lit "cargo"; lit "doc"; lit "-p"; lit "nalgebra"; lit "--no-deps";
          lit "--all-features"];
    Exec [lit "cd"; lit "-"];
    Exec [lit "rm"; lit "-rf"; lit "docs/rustdoc"];
    Exec [lit "cp"; lit "-r"; [Var "nalgebra_dir"; Lit "/target/doc"];
          [Var "out_dir"]];
    Exec [lit "echo"; lit "... documentation for nalgebra generated!"];
    Exec [lit "./fix_rustdoc.sh"; lit "rustdoc"; lit "rustdoc_nalgebra"];
    Exec [lit "echo"; lit "Generating the documentation..."];
    Assign "out_dir" (lit "./docs/rustdoc_glm");
    Exec [lit "cd"; [Var "nalgebra_dir"]];
    Exec [lit "rm"; lit "-r"; lit "target/doc"];
    Exec [lit "cargo"; lit "doc"; lit "-p"; lit "nalgebra-glm";
          lit "--no-deps"; lit "--all-features"];
    Exec [lit "cd"; lit "-"];
    Exec [lit "rm"; lit "-rf"; lit "docs/rustdoc_glm"];
    Exec [lit "cp"; lit "-r"; [Var "nalgebra_dir"; Lit "/target/doc"];
          [Var "out_dir"]];
    Exec [lit "echo"; lit "... documentation for nalgebra-glm generated!"];
    Exec [lit "./fix_rustdoc.sh"; lit "rustdoc_glm";
          lit "rustdoc_nalgebra_glm"] ].

(** A directory, as its segments from the directory the script starts in
    (the site's root). *)
Definition dir : Type := list string.

(** One more segment on a path kept innermost first: [.] and empty segments
    change nothing, [..] leaves the innermost directory. *)
Definition enter (stack : list string) (seg : string) : list string :=
  if (seg =? "") || (seg =? ".") then stack
  else if seg =? ".." then
    match stack with
    | top :: stack' => if top =? ".." then seg :: stack else stack'
    | [] => [seg]
    end
  else seg :: stack.

(** The relative path [p], seen from [cwd]. *)
Definition resolve (cwd : dir) (p : string) : dir :=
  rev (fold_left enter (segments p) (rev cwd)).

Record shell : Type := {
  vars : list (string * string);
  cwd : dir;
  oldpwd : option dir
}.

(** A command that ran: where, and with which arguments. *)
Record event : Type := {
  ev_cwd : dir;
  ev_argv : list string
}.

Fixpoint lookup (k : string) (vs : list (string * string)) : string :=
  match vs with
  | [] => ""
  | (k', v) :: vs' => if k' =? k then v else lookup k vs'
  end.

Definition expand (vs : list (string * string)) (w : word) : string :=
  concat "" (map (fun p => match p with
                           | Lit s => s
                           | Var x => lookup x vs
                           end) w).

Section Run.

(** The directories that exist when the script runs; [cd] fails, and leaves
    the shell where it is, on any other. *)
Variable dir_exists : dir -> bool.

(** [cd -] goes back to [$OLDPWD]; [cd d] keeps the directory it leaves in
    [$OLDPWD]. *)
Definition cd (sh : shell) (target : string) : shell :=
  if target =? "-" then
    match oldpwd sh with
    | Some d => {| vars := vars sh; cwd := d; oldpwd := Some (cwd sh) |}
    | None => sh
    end
  else
    let d := resolve (cwd sh) target in
    if dir_exists d then
      {| vars := vars sh; cwd := d; oldpwd := Some (cwd sh) |}
    else sh.

(** One command: the shell after it, and the event when it is not [cd]. *)
Definition step (sh : shell) (c : command) : shell * list event :=
  match c with
  | Assign x w =>
      ({| vars := (x, expand (vars sh) w) :: vars sh;
          cwd := cwd sh;
          oldpwd := oldpwd sh |}, [])
  | Exec ws =>
      match map (expand (vars sh)) ws with
      | ["cd"; target] => (cd sh target, [])
      | argv => (sh, [{| ev_cwd := cwd sh; ev_argv := argv |}])
      end
  end.

Fixpoint run (sh : shell) (cs : list command) : list event :=
  match cs with
  | [] => []
  | c :: cs' => let (sh', evs) := step sh c in evs ++ run sh' cs'
  end.

Definition initial : shell := {| vars := []; cwd := []; oldpwd := None |}.

End Run.

(** The checkout of the library, beside the site: [$nalgebra_dir]. *)
Definition sibling : dir := [".."; "nalgebra"].

(** Where [cargo doc], run in the checkout, leaves what it generates. *)
Definition sibling_doc : dir := [".."; "nalgebra"; "target"; "doc"].

(** What an event does to the documentation, with its paths resolved. *)
Inductive action : Type :=
| Generate (package : string) (inside : dir)
| Remove (target : dir)
| Copy (source target : dir)
| Other.

Definition classify (e : event) : action :=
  match ev_argv e with
  | ["cargo"; "doc"; "-p"; package; "--no-deps"; "--all-features"] =>
      Generate package (ev_cwd e)
  | ["rm"; "-r"; d] => Remove (resolve (ev_cwd e) d)
  | ["rm"; "-rf"; d] => Remove (resolve (ev_cwd e) d)
  | ["cp"; "-r"; s; d] => Copy (resolve (ev_cwd e) s) (resolve (ev_cwd e) d)
  | _ => Other
  end.

Definition is_other (a : action) : bool :=
  match a with
  | Other => true
  | _ => false
  end.

Definition actions (evs : list event) : list action :=
  filter (fun a => negb (is_other a)) (map classify evs).

End GenDocs.

(** ** The theme configuration: navbar and footer *)

Module ThemeConfig.

(** A navbar or footer entry: an object literal with string fields. *)
Definition entry : Type := list (string * string).

Fixpoint field (k : string) (fs : entry) : option string :=
  match fs with
  | [] => None
  | (k', v) :: fs' => if k' =? k then Some v else field k fs'
  end.

(** [themeConfig.navbar.items]. *)
Definition navbar_items : list entry :=
  [ [ ("type", "doc"); ("position", "left"); ("docId", "about_nalgebra");
      ("label", "Docs") ];
    [ ("to", "/community"); ("position", "left");
      ("activeBaseRegex", "/community/"); ("label", "Community") ];
    [ ("href", "https://dimforge.com/blog"); ("label", "Blog ↪");
      ("position", "left") ];
    [ ("href", "https://github.com/sponsors/dimforge"); ("label", "Donate ♥");
      ("position", "right"); ("className", "header-button-donate") ];
    [ ("href", "https://dimforge.com/about"); ("label", "Dimforge ↪");
      ("position", "right") ];
    [ ("href", "https://github.com/dimforge/nalgebra"); ("position", "right");
      ("className", "header-github-link");
      ("aria-label", "GitHub repository") ] ].


(** [themeConfig.footer.links]: the columns, each with its title and
    entries. *)
Definition footer_links : list (string * list entry) :=
  [ ("Resources",
      [ [ ("label", "Documentation"); ("to", "docs/") ];
        [ ("label", "Blog ↪"); ("href", "https://dimforge.com/blog") ] ]);
    ("Community",
      [ [ ("label", "Stack Overflow");
          ("href", "https://stackoverflow.com/questions/tagged/nalgebra") ];
        [ ("label", "Discord"); ("href", "https://discord.gg/vt9DJSW") ];
        [ ("label", "Twitter"); ("href", "https://twitter.com/dimforge") ] ]);
    ("More",
      [ [ ("label", "GitHub");
          ("href", "https://github.com/dimforge/nalgebra") ] ]) ].

(** The entries of the navbar and of the footer columns, in order. *)
Definition entries : list entry :=
  navbar_items ++ flat_map snd footer_links.

(** The docs plugin instances the configuration sets up: those of [plugins]
    and that of the preset. *)
Definition docs_instances (c : SiteConfig.config)
  : list SiteConfig.docs_options :=
  map snd (SiteConfig.plugins c) ++ [SiteConfig.preset_docs c].

(** A path without the slashes around it: [/community] and [docs/] name the
    segments [community] and [docs]. *)
Definition route_segments (p : string) : list string :=
  filter (fun seg => negb (seg =? "")) (Path.segments p).

(** What an entry points to inside the site is in place: a [to] names the
    route base path of a docs instance, a [docId] a document of the docs
    sidebar. *)
Definition internal_ok (c : SiteConfig.config) (e : entry) : bool :=
  match field "to" e with
  | Some target =>
      existsb
        (fun d =>
           if list_eq_dec string_dec (route_segments target)
                (route_segments (SiteConfig.routeBasePath d))
           then true else false)
        (docs_instances c)
  | None => true
  end
  &&
  match field "docId" e with
  | Some id =>
      existsb (fun i => i =? id) (Sidebar.tree_doc_ids Sidebar.docs)
  | None => true
  end.

(** The ways an entry names its target: [to], [href], [docId]. *)
Definition targets (e : entry) : list string :=
  filter (fun k => match field k e with Some _ => true | None => false end)
    ["to"; "href"; "docId"].


End ThemeConfig.

(** ** Rendering the landing page *)

Module Render.
Import Js Landing.

(** The context the landing page gets for a configuration: the
    configuration object is its [siteConfig]. *)
Definition context_of (c : SiteConfig.config) : DocusaurusContext :=
  {| siteConfig :=
       Some [ ("title", VStr (SiteConfig.title c));
              ("tagline", VStr (SiteConfig.tagline c));
              ("url", VStr (SiteConfig.url c));
              ("baseUrl", VStr (SiteConfig.baseUrl c));
              ("onBrokenLinks", VStr (SiteConfig.onBrokenLinks c));
              ("favicon", VStr (SiteConfig.favicon c));
              ("organizationName", VStr (SiteConfig.organizationName c));
              ("projectName", VStr (SiteConfig.projectName c)) ] |}.

Section Expand.

Variable useBaseUrl : value -> value.
Variable styles : string -> option string.

(** An element tree with its [Feature] elements rendered: each becomes what
    [Feature] returns for its props.  The elements of imported components
    ([Layout], [Link]) stay as they are. *)
Fixpoint render (e : jsx) : jsx :=
  match e with
  | JText _ | JHole _ => e
  | JHost t ps ch => JHost t ps (map render ch)
  | JFrag ch => JFrag (map render ch)
  | JComp n k ps ch =>
      if n =? "Feature" then Feature useBaseUrl styles ps
      else JComp n k ps (map render ch)
  end.

End Expand.

End Render.

(** ** What the script leaves behind *)

Module GenDocsRun.
Import GenDocs.


Definition is_remove (a : action) : bool :=
  match a with
  | Remove _ => true
  | _ => false
  end.


End GenDocsRun.

(** * Properties *)

(** ** The landing page *)

Module LandingSpec.
Import Js Landing.

Lemma mapi_from_length {A B : Type} (f : A -> nat -> B) (xs : list A) :
  forall k, List.length (mapi_from f k xs) = List.length xs.
Proof.
  induction xs as [|x xs IH]; intros k; simpl; [reflexivity|].
  now rewrite IH.
Qed.

Lemma mapi_from_nth_error {A B : Type} (f : A -> nat -> B) (xs : list A) :
  forall k i,
    nth_error (mapi_from f k xs) i
    = option_map (fun x => f x (k + i)) (nth_error xs i).
Proof.
  induction xs as [|x xs IH]; intros k i.
  - destruct i; reflexivity.
  - destruct i as [|i]; simpl.
    + now rewrite Nat.add_0_r.
    + rewrite IH. now rewrite Nat.add_succ_r.
Qed.

(** The [Feature] elements among the elements [map] builds are these
    elements, one per descriptor. *)
Lemma feature_elements_of_map (feats : list obj) :
  forall k,
    flat_map (components_named "Feature")
      (mapi_from (fun props idx => JComp "Feature" (Some idx) props []) k feats)
    = mapi_from (fun props idx => (Some idx, props)) k feats.
Proof.
  induction feats as [|d feats IH]; intros k; [reflexivity|].
  cbn [mapi_from flat_map]. rewrite IH. reflexivity.
Qed.

Lemma feature_grid_components (styles : string -> option string)
      (feats : list obj) :
  components_named "Feature" (feature_grid styles feats)
  = mapi (fun props idx => (Some idx, props)) feats.
Proof.
  unfold feature_grid, mapi.
  destruct feats as [|d feats]; [reflexivity|].
  change (0 <? List.length (d :: feats))%nat with true. cbv iota.
  cbn [components_named flat_map].
  rewrite !app_nil_r.
  apply feature_elements_of_map.
Qed.

(** Whatever the hooks and the style sheet give, the [Feature] elements of
    [Home] are those of its grid. *)
Lemma Home_of_components useBaseUrl context styles (feats : list obj) :
  components_named "Feature" (Home_of useBaseUrl context styles feats)
  = mapi (fun props idx => (Some idx, props)) feats.
Proof.
  unfold Home_of.
  cbn [components_named flat_map].
  change ("Layout" =? "Feature") with false.
  change ("Link" =? "Feature") with false.
  cbn [app]. rewrite !app_nil_r.
  apply feature_grid_components.
Qed.

(** The elements [map] builds hold no DOM element: they are component
    elements without children. *)
Lemma no_host_in_map (tag : string) (feats : list obj) :
  forall k,
    flat_map (hosts_named tag)
      (mapi_from (fun props idx => JComp "Feature" (Some idx) props []) k feats)
    = [].
Proof.
  induction feats as [|d feats IH]; intros k; [reflexivity|].
  cbn [mapi_from flat_map hosts_named app]. apply IH.
Qed.

(** [Feature] reads its props through [imageUrl], [title] and
    [description] only. *)
Lemma Feature_reads useBaseUrl styles (p q : obj) :
  get "imageUrl" p = get "imageUrl" q ->
  get "title" p = get "title" q ->
  get "description" p = get "description" q ->
  Feature useBaseUrl styles p = Feature useBaseUrl styles q.
Proof.
  intros Hi Ht Hd. unfold Feature. now rewrite Hi, Ht, Hd.
Qed.

(** The [section] elements of [Home]: the grid when there is a feature, none
    otherwise. *)
Lemma Home_of_sections useBaseUrl context styles (feats : list obj) :
  hosts_named "section" (Home_of useBaseUrl context styles feats)
  = match feats with
    | [] => []
    | _ :: _ => [feature_grid styles feats]
    end.
Proof.
  unfold Home_of.
  cbn [hosts_named flat_map].
  change ("header" =? "section") with false.
  change ("div" =? "section") with false.
  change ("img" =? "section") with false.
  change ("p" =? "section") with false.
  change ("main" =? "section") with false.
  cbn [app]. rewrite !app_nil_r.
  unfold feature_grid.
  destruct feats as [|d feats]; [reflexivity|].
  change (0 <? List.length (d :: feats))%nat with true. cbv iota.
  cbn [hosts_named flat_map].
  change ("section" =? "section") with true.
  change ("div" =? "section") with false.
  cbn [app]. rewrite !app_nil_r.
  f_equal. apply no_host_in_map.
Qed.

Lemma has_exactly_keys (ks : list string) (o : obj) :
  keys o = ks -> has_exactly ks o.
Proof.
  intros <- k. reflexivity.
Qed.

(** C4, as the specification words it, fails: no feature descriptor has a
    field [image]; the field that holds the picture is [imageUrl]. *)
Lemma C4_no_field_named_image :
  ~ Forall (has_exactly ["title"; "image"; "description"]) features.
Proof.
  intros H. inversion H as [|d ds Hd _]; subst.
  destruct (Hd "image") as [_ Hin].
  cbn in Hin.
  assert (Himg : "title" = "image" \/ "image" = "image"
                 \/ "description" = "image" \/ False) by (right; left; reflexivity).
  apply Hin in Himg.
  destruct Himg as [E|[E|[E|[]]]]; discriminate E.
Qed.

(** C4, amended: [features] is a literal array whose elements all have exactly
    the fields [title], [imageUrl] and [description], and a render of [Home]
    consumes it once: the [Feature] elements of the page carry, one each and
    in order, the descriptors of the array. *)
Theorem C4_feature_descriptors :
  Forall (has_exactly ["title"; "imageUrl"; "description"]) features
  /\ forall useBaseUrl context styles,
      map snd (components_named "Feature" (Home useBaseUrl context styles))
      = features.
Proof.
  split.
  - unfold features.
    repeat (apply Forall_cons; [apply has_exactly_keys; reflexivity|]).
    apply Forall_nil.
  - intros useBaseUrl context styles. unfold Home.
    rewrite Home_of_components. reflexivity.
Qed.

(** C6: [Home] is a function of what its hooks return, and the [i]-th
    [Feature] element it builds has key [i] and, as props, the [i]-th
    descriptor of [features] as it stands: its [title], [imageUrl] and
    [description], and nothing else; past the end of the array there is no
    element. *)
Theorem C6_feature_props_in_order useBaseUrl context styles :
  forall i,
    nth_error (components_named "Feature" (Home useBaseUrl context styles)) i
    = option_map (fun d => (Some i, d)) (nth_error features i).
Proof.
  intros i. unfold Home. rewrite Home_of_components.
  unfold mapi. rewrite mapi_from_nth_error. reflexivity.
Qed.

(** C8: [Home] has the grid section exactly when the array it maps is not
    empty; [features] has six descriptors, so [Home] has one section, and
    the section holds six [Feature] elements. *)
Theorem C8_grid_section useBaseUrl context styles :
  (forall feats,
      hosts_named "section" (Home_of useBaseUrl context styles feats) <> []
      <-> feats <> [])
  /\ List.length features = 6
  /\ exists section,
      hosts_named "section" (Home useBaseUrl context styles) = [section]
      /\ List.length (components_named "Feature" section) = 6.
Proof.
  split; [|split].
  - intros feats. rewrite Home_of_sections.
    destruct feats; split; intros H; try discriminate; congruence.
  - reflexivity.
  - exists (feature_grid styles features). split.
    + unfold Home. rewrite Home_of_sections. reflexivity.
    + rewrite feature_grid_components. unfold mapi.
      rewrite mapi_from_length. reflexivity.
Qed.

(** C9: for any props, [Feature] builds the image container and the [img]
    in it exactly when [useBaseUrl(imageUrl)] is truthy, and the [src] of an
    [img] it builds is that truthy value: present and not the empty
    string. *)
Theorem C9_image_only_for_truthy_url useBaseUrl styles (props : obj) :
  hosts_named "img" (Feature useBaseUrl styles props)
  = (if truthy (useBaseUrl (get "imageUrl" props))
     then [ JHost "img"
              [ ("className", opt_str (styles "featureImage"));
                ("src", useBaseUrl (get "imageUrl" props));
                ("alt", get "title" props) ]
              [] ]
     else [])
  /\ map props_of (tl (hosts_named "div" (Feature useBaseUrl styles props)))
     = (if truthy (useBaseUrl (get "imageUrl" props))
        then [[("className", VStr "text--center")]]
        else [])
  /\ Forall
       (fun img =>
          has "src" (props_of img) = true
          /\ truthy (get "src" (props_of img)) = true
          /\ get "src" (props_of img) <> VStr ""
          /\ get "src" (props_of img) <> VUndefined)
       (hosts_named "img" (Feature useBaseUrl styles props)).
Proof.
  assert (Himg :
    hosts_named "img" (Feature useBaseUrl styles props)
    = (if truthy (useBaseUrl (get "imageUrl" props))
       then [ JHost "img"
                [ ("className", opt_str (styles "featureImage"));
                  ("src", useBaseUrl (get "imageUrl" props));
                  ("alt", get "title" props) ]
                [] ]
       else [])).
  { unfold Feature, js_and.
    destruct (truthy (useBaseUrl (get "imageUrl" props))); reflexivity. }
  split; [exact Himg|split].
  - unfold Feature, js_and.
    destruct (truthy (useBaseUrl (get "imageUrl" props))); reflexivity.
  - rewrite Himg.
    destruct (truthy (useBaseUrl (get "imageUrl" props))) eqn:Ht;
      constructor; [|constructor].
    cbn. repeat split; try exact Ht; intros E; rewrite E in Ht; discriminate Ht.
Qed.

End LandingSpec.

(** ** The docs sidebar *)

Module SidebarSpec.
Import Sidebar.

(** The identifiers the docs tree asks the docs directory for: twelve, each
    listed once. *)
Lemma docs_identifiers :
  tree_doc_ids docs
  = [ "about_nalgebra";
      "user_guide/getting_started";
      "user_guide/vectors_and_matrices";
      "user_guide/decompositions_and_lapack";
      "user_guide/points_and_transformations";
      "user_guide/projections";
      "user_guide/cg_recipes";
      "user_guide/nalgebra_glm";
      "user_guide/performance_tricks";
      "user_guide/wasm_and_embedded_targets";
      "user_guide/generic_programming";
      "faq" ].
Proof. reflexivity. Qed.

Lemma docs_identifiers_distinct : NoDup (tree_doc_ids docs).
Proof.
  rewrite docs_identifiers.
  repeat (apply NoDup_cons;
          [ cbn; intros H;
            repeat (destruct H as [H|H]; [discriminate H|]); exact H | ]).
  apply NoDup_nil.
Qed.

(** A link entry names no document. *)
Lemma link_has_no_doc_id (it : item) :
  is_https_link it = true -> doc_ids it = [].
Proof.
  destruct it as [id|label items|fs]; cbn; intros H;
    [discriminate H|discriminate H|reflexivity].
Qed.

(** C10: the tree has the category 'API documentation', each of whose
    entries is an object of type 'link' with an [https://] href; the category
    lists no document identifier, so nothing in it is resolved to a page. *)
Theorem C10_api_documentation_links :
  exists items,
    category_items "API documentation" docs = Some items
    /\ List.length items = 3
    /\ Forall (fun it => is_https_link it = true) items
    /\ flat_map doc_ids items = [].
Proof.
  eexists. split; [reflexivity|]. split; [reflexivity|]. split.
  - repeat (apply Forall_cons; [reflexivity|]). apply Forall_nil.
  - reflexivity.
Qed.

End SidebarSpec.

(** ** The site configuration *)

Module SiteConfigSpec.
Import SiteConfig.

(** C3, as the specification words it, fails: what the configuration sets
    for broken links is not the value on which the generator aborts. *)
Lemma C3_not_the_aborting_value :
  reportMessage (onBrokenLinks siteConfig) <> Thrown.
Proof. cbn. discriminate. Qed.

(** C3, amended: the configuration sets [onBrokenLinks] to ['error'], on
    which the generator prints a broken link at error level and goes on;
    ['throw'], the value on which it aborts, is what the source keeps in the
    comment beside it. *)
Theorem C3_onBrokenLinks_is_error :
  onBrokenLinks siteConfig = "error"
  /\ reportMessage (onBrokenLinks siteConfig) = Printed "error"
  /\ reportMessage onBrokenLinks_commented_out = Thrown
  /\ onBrokenLinks siteConfig <> onBrokenLinks_commented_out.
Proof.
  repeat split; try reflexivity. cbn. discriminate.
Qed.

(** The local files the configuration resolves. *)
Lemma resolved_files_siteConfig :
  resolved_files siteConfig
  = ["./sidebar_community.js"; "./sidebar_docs.js"; "./src/css/custom.css"].
Proof. reflexivity. Qed.

End SiteConfigSpec.

(** ** The content pages *)

Module ContentSpec.
Import Content.

(** A closed block reads the same whatever follows it: the leading lines of
    a page decide its front-matter. *)
Lemma block_fields_app (lines rest : list string) fs :
  block_fields lines = Some fs -> block_fields (lines ++ rest) = Some fs.
Proof.
  revert fs. induction lines as [|l lines IH]; intros fs H; cbn in *.
  - discriminate H.
  - destruct (l =? "---"); [exact H|].
    destruct (block_fields lines) as [fs'|] eqn:E; [|discriminate H].
    rewrite (IH fs' eq_refl). exact H.
Qed.

Lemma front_matter_app (lines rest : list string) fs :
  front_matter lines = Some fs -> front_matter (lines ++ rest) = Some fs.
Proof.
  destruct lines as [|l lines]; cbn; [discriminate|].
  destruct (l =? "---"); [apply block_fields_app|discriminate].
Qed.

(** A file whose first line is not [---] has no front-matter, whatever
    follows. *)
Lemma no_front_matter_app (l : string) (lines rest : list string) :
  (l =? "---") = false -> front_matter ((l :: lines) ++ rest) = None.
Proof.
  intros H. cbn. now rewrite H.
Qed.

(** The pages known to lie in the docs directory are listed by the docs
    sidebar, once each. *)
Lemma doc_ids_of_pages :
  map doc_id pages
  = [ Some "user_guide/decompositions_and_lapack";
      Some "user_guide/nalgebra_glm";
      None; None; None ].
Proof. reflexivity. Qed.

Lemma pages_of_docs_listed_once (p : page) (id : string) :
  In p pages -> doc_id p = Some id ->
  count_occ string_dec (Sidebar.tree_doc_ids Sidebar.docs) id = 1.
Proof.
  intros Hin Hid. cbn in Hin.
  destruct Hin as [<-|[<-|[<-|[<-|[<-|[]]]]]]; cbv in Hid;
    try discriminate Hid; injection Hid as <-; reflexivity.
Qed.

(** C2, as the specification words it, fails: the page [unnamed/part_003]
    begins with its heading and declares no front-matter. *)
Lemma C2_page_without_front_matter :
  ~ (forall p, In p pages -> has_front_matter p = true).
Proof.
  intros H.
  assert (Hp : In part_003 pages) by (cbn; tauto).
  apply H in Hp. cbv in Hp. discriminate Hp.
Qed.

(** C2, amended: each page that opens with a front-matter block declares an
    id, a title and a sidebar label in it; the pages that do not open with
    one, the two Web assembly pages, declare no front-matter and begin with
    their heading. *)
Theorem C2_front_matter_of_pages :
  Forall
    (fun p =>
       if opens_front_matter p then has_front_matter p = true
       else front_matter (head p) = None
            /\ hd_error (head p)
               = Some "# Web assembly and embedded programming")
    pages
  /\ filter (fun p => negb (opens_front_matter p)) pages
     = [part_003; part_004].
Proof.
  split.
  - unfold pages.
    repeat (apply Forall_cons; [cbn; auto|]). apply Forall_nil.
  - reflexivity.
Qed.

End ContentSpec.

(** ** The rustdoc generation script *)

Module GenDocsSpec.
Import GenDocs.

(** The site's root is where the script starts, and the sibling checkout is
    one directory up. *)
Lemma resolve_sibling : resolve [] "../nalgebra" = sibling.
Proof. reflexivity. Qed.

(** The script generates the documentation in the sibling checkout only if
    [cd] gets there: without the checkout, [cargo doc] runs where the script
    was started. *)
Lemma without_checkout :
  hd_error
    (filter (fun a => match a with Generate _ _ => true | _ => false end)
       (actions (run (fun _ => false) initial script)))
  = Some (Generate "nalgebra" []).
Proof. reflexivity. Qed.

Section WithCheckout.

Variable dir_exists : dir -> bool.
Hypothesis checkout_exists : dir_exists sibling = true.

Lemma cd_to_sibling vs old :
  cd dir_exists {| vars := vs; cwd := []; oldpwd := old |} "../nalgebra"
  = {| vars := vs; cwd := sibling; oldpwd := Some [] |}.
Proof.
  unfold cd. cbn [String.eqb Ascii.eqb Bool.eqb cwd vars].
  rewrite resolve_sibling, checkout_exists. reflexivity.
Qed.

Lemma cd_back vs here there :
  cd dir_exists {| vars := vs; cwd := here; oldpwd := Some there |} "-"
  = {| vars := vs; cwd := there; oldpwd := Some here |}.
Proof. reflexivity. Qed.

Ltac run_command :=
  cbn [run step map expand lit lookup concat vars cwd oldpwd String.eqb
       Ascii.eqb Bool.eqb fst snd app];
  rewrite ?cd_to_sibling, ?cd_back.

(** C7: with the sibling checkout [../nalgebra] in place, the script does,
    for [nalgebra] and then for [nalgebra-glm]: [cargo doc] for the package
    inside the checkout (after it removed the checkout's [target/doc]), the
    removal of the output directory under the site's [docs] ([docs/rustdoc],
    then [docs/rustdoc_glm]), and the copy of the checkout's [target/doc] to
    that directory; no other removal, copy or generation happens. *)
Theorem C7_generate_then_replace :
  actions (run dir_exists initial script)
  = [ Remove sibling_doc;
      Generate "nalgebra" sibling;
      Remove ["docs"; "rustdoc"];
      Copy sibling_doc ["docs"; "rustdoc"];
      Remove sibling_doc;
      Generate "nalgebra-glm" sibling;
      Remove ["docs"; "rustdoc_glm"];
      Copy sibling_doc ["docs"; "rustdoc_glm"] ].
Proof.
  unfold script, initial.
  repeat (progress run_command).
  reflexivity.
Qed.

End WithCheckout.

(** C7 where every directory exists. *)
Lemma C7_generate_then_replace_witness :
  actions (run (fun _ => true) initial script)
  = [ Remove sibling_doc;
      Generate "nalgebra" sibling;
      Remove ["docs"; "rustdoc"];
      Copy sibling_doc ["docs"; "rustdoc"];
      Remove sibling_doc;
      Generate "nalgebra-glm" sibling;
      Remove ["docs"; "rustdoc_glm"];
      Copy sibling_doc ["docs"; "rustdoc_glm"] ].
Proof.
  apply (C7_generate_then_replace (fun _ => true)). reflexivity.
Defined.

End GenDocsSpec.

(** ** More on the landing page *)

Module LandingMore.
Import Js Landing Render.

Lemma get_absent (k : string) (o : obj) :
  has k o = false -> get k o = VUndefined.
Proof.
  induction o as [|[k' v] o IH]; cbn; [reflexivity|].
  destruct (k' =? k); cbn; [discriminate|exact IH].
Qed.

(** A prop that is none of [imageUrl], [title] and [description] makes no
    difference to what [Feature] returns. *)
Theorem Feature_ignores_other_props useBaseUrl styles
        (k : string) (v : value) (props : obj) :
  k <> "imageUrl" -> k <> "title" -> k <> "description" ->
  Feature useBaseUrl styles ((k, v) :: props)
  = Feature useBaseUrl styles props.
Proof.
  intros Hi Ht Hd.
  apply LandingSpec.Feature_reads; cbn [get];
    match goal with
    | |- (if k =? ?s then _ else _) = _ =>
        destruct (String.eqb_spec k s); [contradiction|reflexivity]
    end.
Qed.

Lemma Feature_ignores_other_props_witness :
  Feature (fun u => u) (fun _ => None)
    [("key", VNum 0); ("title", VStr "t")]
  = Feature (fun u => u) (fun _ => None) [("title", VStr "t")].
Proof.
  apply (Feature_ignores_other_props (fun u => u) (fun _ => None)
           "key" (VNum 0) [("title", VStr "t")]); discriminate.
Defined.



(** The grid holds [section] and [div] elements and nothing else of the
    DOM: its [Feature] elements are not rendered yet. *)
Lemma grid_hosts (tag : string) styles (feats : list obj) :
  (tag =? "section") = false -> (tag =? "div") = false ->
  hosts_named tag (feature_grid styles feats) = [].
Proof.
  intros Hs Hd. unfold feature_grid, mapi.
  destruct feats as [|d feats]; [reflexivity|].
  change (0 <? List.length (d :: feats))%nat with true. cbv iota.
  cbn [hosts_named flat_map].
  rewrite (String.eqb_sym "section"), (String.eqb_sym "div"), Hs, Hd.
  cbn [app]. rewrite !app_nil_r.
  apply LandingSpec.no_host_in_map.
Qed.

(** A site configuration without [title] and [tagline] gives the page of a
    missing configuration: the layout's title starts with [undefined] and
    the subtitle is empty. *)
Theorem Home_without_title useBaseUrl styles (feats : list obj) (c : obj) :
  has "title" c = false -> has "tagline" c = false ->
  Home_of useBaseUrl {| siteConfig := Some c |} styles feats
  = Home_of useBaseUrl {| siteConfig := None |} styles feats
  /\ get "title"
       (props_of (Home_of useBaseUrl {| siteConfig := Some c |} styles feats))
     = VStr "undefined linear-algebra library"
  /\ hosts_named "p"
       (Home_of useBaseUrl {| siteConfig := Some c |} styles feats)
     = [ JHost "p" [("className", VStr "hero__subtitle")]
           [JHole VUndefined] ].
Proof.
  intros Ht Hg. unfold Home_of. cbn [siteConfig].
  rewrite (get_absent _ _ Ht), (get_absent _ _ Hg).
  split; [reflexivity|]. split; [reflexivity|].
  cbn [hosts_named flat_map String.eqb Ascii.eqb Bool.eqb app get].
  rewrite grid_hosts by reflexivity. reflexivity.
Qed.

Lemma Home_without_title_witness :
  Home_of (fun u => u) {| siteConfig := Some [("url", VStr "/")] |}
    (fun _ => None) features
  = Home_of (fun u => u) {| siteConfig := None |} (fun _ => None) features.
Proof.
  apply (Home_without_title (fun u => u) (fun _ => None) features
           [("url", VStr "/")]); reflexivity.
Defined.

(** For any configuration, the landing page is titled with the site's title
    and shows the site's tagline as its subtitle. *)
Theorem Home_shows_title_and_tagline useBaseUrl styles (feats : list obj)
        (c : SiteConfig.config) :
  get "title" (props_of (Home_of useBaseUrl (context_of c) styles feats))
  = VStr (SiteConfig.title c ++ " linear-algebra library")
  /\ hosts_named "p" (Home_of useBaseUrl (context_of c) styles feats)
     = [ JHost "p" [("className", VStr "hero__subtitle")]
           [JHole (VStr (SiteConfig.tagline c))] ].
Proof.
  unfold Home_of, context_of. cbn [siteConfig].
  split; [reflexivity|].
  cbn [hosts_named flat_map String.eqb Ascii.eqb Bool.eqb app get].
  rewrite grid_hosts by reflexivity. reflexivity.
Qed.

(** The [Link] of the hero, for any array [Home] maps: one link, to the
    base-URL-resolved route of the document [user_guide/getting_started],
    which the docs sidebar lists, under the route base path of the docs. *)
Theorem get_started_link useBaseUrl context styles (feats : list obj) :
  map (fun kp => get "to" (snd kp))
    (components_named "Link" (Home_of useBaseUrl context styles feats))
  = [ useBaseUrl
        (VStr (SiteConfig.routeBasePath
                 (SiteConfig.preset_docs SiteConfig.siteConfig)
               ++ "/" ++ "user_guide/getting_started")) ]
  /\ In "user_guide/getting_started" (Sidebar.tree_doc_ids Sidebar.docs).
Proof.
  split; [|cbn; tauto].
  unfold Home_of.
  cbn [components_named flat_map String.eqb Ascii.eqb Bool.eqb app map snd
       get].
  assert (Hgrid : components_named "Link" (feature_grid styles feats) = []).
  { unfold feature_grid, mapi.
    destruct feats as [|d feats]; [reflexivity|].
    change (0 <? List.length (d :: feats))%nat with true. cbv iota.
    cbn [components_named flat_map]. rewrite !app_nil_r.
    generalize 0 (d :: feats). intros k l. revert k.
    induction l as [|x l IH]; intros k; [reflexivity|].
    cbn [mapi_from flat_map components_named String.eqb Ascii.eqb Bool.eqb
         app]. apply IH. }
  rewrite Hgrid. reflexivity.
Qed.

Section Rendered.

Variable useBaseUrl : value -> value.
Variable styles : string -> option string.

Lemma render_features (feats : list obj) :
  forall k,
    map (render useBaseUrl styles)
      (mapi_from (fun props idx => JComp "Feature" (Some idx) props []) k feats)
    = map (Feature useBaseUrl styles) feats.
Proof.
  induction feats as [|d feats IH]; intros k; [reflexivity|].
  cbn [mapi_from map]. rewrite IH. reflexivity.
Qed.

(** The rendered grid: the row holds what [Feature] returns for each entry
    of the array, in order. *)
Lemma render_grid (feats : list obj) :
  render useBaseUrl styles (feature_grid styles feats)
  = match feats with
    | [] => JHole (VBool false)
    | _ :: _ =>
        JHost "section" [("className", opt_str (styles "features"))]
          [ JHost "div" [("className", VStr "container")]
              [ JHost "div" [("className", VStr "row")]
                  (map (Feature useBaseUrl styles) feats) ] ]
    end.
Proof.
  unfold feature_grid, mapi.
  destruct feats as [|d feats]; [reflexivity|].
  change (0 <? List.length (d :: feats))%nat with true. cbv iota.
  cbn [render map]. rewrite render_features. reflexivity.
Qed.

Lemma Feature_headings (props : obj) :
  hosts_named "h3" (Feature useBaseUrl styles props)
  = [JHost "h3" [] [JHole (get "title" props)]].
Proof.
  unfold Feature, js_and.
  destruct (truthy (useBaseUrl (get "imageUrl" props))); reflexivity.
Qed.

Lemma Feature_images (props : obj) :
  hosts_named "img" (Feature useBaseUrl styles props)
  = if truthy (useBaseUrl (get "imageUrl" props))
    then [ JHost "img"
             [ ("className", opt_str (styles "featureImage"));
               ("src", useBaseUrl (get "imageUrl" props));
               ("alt", get "title" props) ]
             [] ]
    else [].
Proof.
  unfold Feature, js_and.
  destruct (truthy (useBaseUrl (get "imageUrl" props))); reflexivity.
Qed.

(** The DOM elements of a tag other than [section] and [div] in the rendered
    grid are those of the rendered features, in order. *)
Lemma rendered_grid_hosts (tag : string) (feats : list obj) :
  (tag =? "section") = false -> (tag =? "div") = false ->
  hosts_named tag (render useBaseUrl styles (feature_grid styles feats))
  = flat_map (fun d => hosts_named tag (Feature useBaseUrl styles d)) feats.
Proof.
  intros Hs Hd. rewrite render_grid.
  destruct feats as [|d feats]; [reflexivity|].
  cbn [hosts_named flat_map].
  rewrite (String.eqb_sym "section"), (String.eqb_sym "div"), Hs, Hd.
  cbn [app]. rewrite !app_nil_r.
  now rewrite flat_map_concat_map, map_map, <- flat_map_concat_map.
Qed.

(** The rendered page has one heading per entry of the array [Home] maps,
    in the array's order, holding the entry's [title]: with or without an
    image, and [undefined] for an entry without title. *)
Theorem rendered_headings context (feats : list obj) :
  hosts_named "h3"
    (render useBaseUrl styles (Home_of useBaseUrl context styles feats))
  = map (fun d => JHost "h3" [] [JHole (get "title" d)]) feats.
Proof.
  unfold Home_of.
  cbn [render map hosts_named flat_map String.eqb Ascii.eqb Bool.eqb app].
  rewrite rendered_grid_hosts by reflexivity.
  rewrite !app_nil_r.
  induction feats as [|d feats IH]; [reflexivity|].
  cbn [flat_map map]. rewrite Feature_headings, IH. reflexivity.
Qed.

(** The images of the rendered page: the logo of the hero, whose [src] is
    the literal path and not resolved against the base URL, then one image
    per entry whose resolved [imageUrl] is truthy, with that URL as [src];
    an entry whose URL resolves to a falsy value gets no image. *)
Theorem rendered_images context (feats : list obj) :
  map (fun img => get "src" (props_of img))
    (hosts_named "img"
       (render useBaseUrl styles (Home_of useBaseUrl context styles feats)))
  = VStr "img/logo_nalgebra.svg"
      :: filter truthy (map (fun d => useBaseUrl (get "imageUrl" d)) feats).
Proof.
  unfold Home_of.
  cbn [render map hosts_named flat_map String.eqb Ascii.eqb Bool.eqb app
       props_of get].
  rewrite rendered_grid_hosts by reflexivity.
  rewrite !app_nil_r. f_equal.
  induction feats as [|d feats IH]; [reflexivity|].
  cbn [flat_map map filter]. rewrite map_app, IH, Feature_images.
  destruct (truthy (useBaseUrl (get "imageUrl" d))); reflexivity.
Qed.

(** The [alt] of a feature's image is the [title] prop as it is passed; for
    the entries of [features] that is an element, not a string. *)
Theorem feature_image_alt :
  (forall props,
      Forall (fun img => get "alt" (props_of img) = get "title" props)
        (hosts_named "img" (Feature useBaseUrl styles props)))
  /\ Forall
       (fun d =>
          Forall (fun img => exists e, get "alt" (props_of img) = VJsx e)
            (hosts_named "img" (Feature useBaseUrl styles d)))
       features.
Proof.
  split.
  - intros props. rewrite Feature_images.
    destruct (truthy (useBaseUrl (get "imageUrl" props)));
      repeat constructor.
  - unfold features.
    repeat (apply Forall_cons;
            [ rewrite Feature_images;
              match goal with
              | |- Forall _ (if ?b then _ else _) =>
                  destruct b; [apply Forall_cons; [|apply Forall_nil]
                              |apply Forall_nil]
              end;
              eexists; reflexivity
            | ]).
    apply Forall_nil.
Qed.

End Rendered.

End LandingMore.

(** ** More on the generation script *)

Module GenDocsMore.
Import GenDocs GenDocsRun.

Section AnyDirectories.

Variable dir_exists : dir -> bool.







End AnyDirectories.


End GenDocsMore.

(** ** More on the configuration *)

Module ConfigMore.
Import SiteConfig ThemeConfig.

(** Every entry of the navbar and of the footer names its target in exactly
    one way ([to], [href] or [docId]); what it names inside the site is in
    place: a [to] is the route base path of a configured docs instance, the
    [docId] a document of the docs sidebar. *)
Theorem navigation_targets :
  Forall (fun e => List.length (targets e) = 1) entries
  /\ Forall (fun e => internal_ok siteConfig e = true) entries
  /\ flat_map targets entries
     = [ "docId"; "to"; "href"; "href"; "href"; "href";
         "to"; "href"; "href"; "href"; "href"; "href" ].
Proof.
  split; [|split]; [| |reflexivity];
    unfold entries, navbar_items, footer_links;
    cbn [app flat_map snd];
    repeat (apply Forall_cons; [reflexivity|]); apply Forall_nil.
Qed.

(** The two docs instances (the community docs of [plugins], the docs of the
    preset) differ in id, directory, route base path and sidebar file. *)
Theorem docs_instances_are_apart :
  NoDup (map id (docs_instances siteConfig))
  /\ NoDup (map path (docs_instances siteConfig))
  /\ NoDup (map routeBasePath (docs_instances siteConfig))
  /\ NoDup (map sidebarPath (docs_instances siteConfig)).
Proof.
  repeat split;
    (apply NoDup_cons;
     [ cbn; intros [H|[]]; discriminate H
     | apply NoDup_cons; [intros []|apply NoDup_nil] ]).
Qed.


End ConfigMore.

(** ** More on the content pages *)

Module ContentMore.
Import Content.

(** A page of the sources that lies in the docs directory and declares an id
    is named after that id, and the docs sidebar lists it, once. *)
Theorem page_of_docs_is_listed_once (p : page) (id : string) :
  In p pages -> doc_id p = Some id ->
  name p = "docs/" ++ id ++ ".mdx"
  /\ count_occ string_dec (Sidebar.tree_doc_ids Sidebar.docs) id = 1.
Proof.
  intros Hin Hid. cbn in Hin.
  destruct Hin as [<-|[<-|[<-|[<-|[<-|[]]]]]]; cbv in Hid;
    try discriminate Hid; injection Hid as <-; split; reflexivity.
Qed.

Lemma page_of_docs_is_listed_once_witness :
  name nalgebra_glm = "docs/" ++ "user_guide/nalgebra_glm" ++ ".mdx"
  /\ count_occ string_dec (Sidebar.tree_doc_ids Sidebar.docs)
       "user_guide/nalgebra_glm" = 1.
Proof.
  apply (page_of_docs_is_listed_once nalgebra_glm "user_guide/nalgebra_glm").
  - cbn. tauto.
  - reflexivity.
Defined.

End ContentMore.

(** ** More on the docs sidebar *)

Module SidebarMore.
Import Sidebar.

(** The docs sidebar names no document twice; the entries of its category
    'User Guide' are documents of the directory [user_guide], and the
    commented-out [user_guide/quick_reference] is not among what it lists. *)
Theorem sidebar_identifiers :
  NoDup (tree_doc_ids docs)
  /\ (exists items,
         category_items "User Guide" docs = Some items
         /\ List.length items = 10
         /\ Forall (fun it => exists n, it = Doc ("user_guide/" ++ n)) items)
  /\ ~ In "user_guide/quick_reference" (tree_doc_ids docs).
Proof.
  split; [exact SidebarSpec.docs_identifiers_distinct|]. split.
  - eexists. split; [reflexivity|]. split; [reflexivity|].
    repeat (apply Forall_cons; [eexists; reflexivity|]). apply Forall_nil.
  - rewrite SidebarSpec.docs_identifiers. cbn. intros H.
    repeat (destruct H as [H|H]; [discriminate H|]). exact H.
Qed.

End SidebarMore.
